(** * Event Hunter: the discovery form's stream protocol and query composer

    A shallow embedding of [event-hunter/src/EventDiscoveryForm.tsx]:
    the WebSocket handlers installed by [connectWebSocket] (in particular
    [onmessage], which folds the server's frames into the component
    state and filters the streamed fragments) and [handleSubmit], which
    gates a submission and composes the natural-language query.

    JavaScript strings are sequences of UTF-16 code units; [length]
    counts code units and [includes] searches for a contiguous run of
    them.  They are modelled as lists of code units. *)

From Stdlib Require Import List NArith ZArith Bool Ascii String Lia.
From Stdlib Require DecimalString.
Import ListNotations.

Local Open Scope list_scope.

(** ** JavaScript strings *)

Module JS.

Definition code_unit := N.
Definition jsstring := list code_unit.

(** A source literal; every literal of the component is ASCII apart
    from escapes, which are written with [String] and [ascii_of_nat]. *)
Fixpoint lit (s : string) : jsstring :=
  match s with
  | EmptyString => []
  | String c r => N_of_ascii c :: lit r
  end.

(** [s.length] *)
Definition length (s : jsstring) : nat := List.length s.

(** [s.startsWith(p)], the position test that [includes] repeats. *)
Fixpoint startsWith (s p : jsstring) {struct p} : bool :=
  match p, s with
  | [], _ => true
  | _ :: _, [] => false
  | c :: p', d :: s' => N.eqb c d && startsWith s' p'
  end.

(** [s.includes(p)]: [p] occurs in [s] at some position. *)
Fixpoint includes (s p : jsstring) : bool :=
  startsWith s p ||
  match s with
  | [] => false
  | _ :: s' => includes s' p
  end.

(** Truthiness of a string value: only the empty string is falsy. *)
Definition truthy (s : jsstring) : bool :=
  match s with
  | [] => false
  | _ :: _ => true
  end.

(** [p] is a substring of [s]. *)
Definition Substring (p s : jsstring) : Prop :=
  exists pre suf, s = pre ++ p ++ suf.

End JS.

Import JS.

(** ** Component state *)

(** The four [useState] cells other than the form data. *)
Record UIState := mkUI {
  isConnected : bool;
  isLoading : bool;
  result : jsstring;
  error : jsstring
}.

Definition setResult (v : jsstring) (st : UIState) : UIState :=
  mkUI (isConnected st) (isLoading st) v (error st).

Definition setIsConnected (v : bool) (st : UIState) : UIState :=
  mkUI v (isLoading st) (result st) (error st).

Definition setIsLoading (v : bool) (st : UIState) : UIState :=
  mkUI (isConnected st) v (result st) (error st).

Definition setError (v : jsstring) (st : UIState) : UIState :=
  mkUI (isConnected st) (isLoading st) (result st) v.

(** The arguments of the four [useState] calls. *)
Definition initialState : UIState := mkUI false false [] [].

(** ** Inbound frames *)

(** A parsed server frame, by its [type] field.  [message] of an
    [error] frame is optional; a frame of any other type falls through
    the handler's [if]/[else if] chain. *)
Inductive InboundEvent :=
| start
| stream (content : jsstring)
| complete
| error_frame (message : option jsstring)
| other_frame.

(** ** The stream classifier (lines 72-80) *)

Definition isToolCallContent (content : jsstring) : bool :=
  includes content (lit "Tool Calls:") ||
  includes content (lit "call_") ||
  includes content (lit "===") ||
  includes content (lit "Agent") ||
  includes content (lit "Running").

Definition isFinalResponse (content : jsstring) : bool :=
  includes content (lit "**Event Name**:") ||
  includes content (lit "## ") ||
  ((100 <? length content)%nat && negb (isToolCallContent content)).

(** [data.message || 'An error occurred'] *)
Definition defaultError : jsstring := lit "An error occurred".

Definition messageOrDefault (message : option jsstring) : jsstring :=
  match message with
  | Some m => if truthy m then m else defaultError
  | None => defaultError
  end.

(** ** [wsRef.current.onmessage] *)

Definition onmessage (data : InboundEvent) (st : UIState) : UIState :=
  match data with
  | start => setResult [] (setIsLoading true st)
  | stream content =>
      if isFinalResponse content then setResult content st else st
  | complete => setIsLoading false st
  | error_frame message =>
      setError (messageOrDefault message) (setIsLoading false st)
  | other_frame => st
  end.

(** The frames of one channel are delivered in order; the state after a
    sequence of frames is the left fold of [onmessage]. *)
Definition onmessages (frames : list InboundEvent) (st : UIState) : UIState :=
  fold_left (fun s data => onmessage data s) frames st.

(** ** The other channel handlers *)

Definition onopen (st : UIState) : UIState :=
  setError [] (setIsConnected true st).

Definition onclose (st : UIState) : UIState :=
  setIsConnected false st.

Definition connectionFailed : jsstring :=
  lit "Connection failed. Please check if the backend is running.".

Definition onerror (st : UIState) : UIState :=
  setIsLoading false (setIsConnected false (setError connectionFailed st)).

(** ** Dates *)

(** A [Date] as read through its local-time getters: [getFullYear],
    [getMonth] (0 for January to 11 for December) and [getDate]. *)
Record Date := mkDate {
  getFullYear : Z;
  getMonth : nat;
  getDate : nat
}.

(** Modelled from the spec: the three tokens of the date-fns pattern
    ['MMMM d, yyyy'] that [handleSubmit] passes to [format]; the package
    is a dependency and its code is not in this repository.  A [Date]
    here is a valid date, as the calendar widget produces. *)
Module DateFns.

Definition decimal (n : N) : jsstring :=
  lit (DecimalString.NilZero.string_of_uint (N.to_uint n)).

(** [addLeadingZeros]: the digits of [n], left-padded with zeros to
    [targetLength]. *)
Definition addLeadingZeros (n : N) (targetLength : nat) : jsstring :=
  let digits := decimal n in
  repeat (N_of_ascii "0") (targetLength - List.length digits) ++ digits.

Definition months : list jsstring :=
  map lit
    ["January"; "February"; "March"; "April"; "May"; "June"; "July";
     "August"; "September"; "October"; "November"; "December"]%string.

(** Token [MMMM]: the full month name. *)
Definition token_MMMM (d : Date) : jsstring := nth (getMonth d) months [].

(** Token [d]: the day of the month, not padded. *)
Definition token_d (d : Date) : jsstring :=
  addLeadingZeros (N.of_nat (getDate d)) 1.

(** Token [yyyy]: the year of the era, padded to four digits. *)
Definition token_yyyy (d : Date) : jsstring :=
  let signedYear := getFullYear d in
  let year := if (0 <? signedYear)%Z then signedYear else (1 - signedYear)%Z in
  addLeadingZeros (Z.to_N year) 4.

End DateFns.

(** Modelled from the spec: [format] is imported from the date-fns
    package, whose code is not part of this repository.  [handleSubmit]
    calls it on a date with the pattern ['MMMM d, yyyy'], which the
    spec describes as dates rendered as "Month D, YYYY": the full
    English month name, a space, the day of the month without padding,
    a comma and a space, and the four-digit year. *)
Definition format_MMMM_d_yyyy (d : Date) : jsstring :=
  DateFns.token_MMMM d ++ lit " " ++ DateFns.token_d d ++ lit ", " ++
  DateFns.token_yyyy d.

(** ** Form data *)

Record DateRange := mkRange {
  from : option Date;
  to : option Date
}.

Record EventFormData := mkForm {
  location : jsstring;
  dateRange : option DateRange;
  vertical : jsstring;
  companies : jsstring;
  additionalInfo : jsstring
}.

(** [dateRange?.from] and [dateRange?.to] on [formData.dateRange],
    which may be [undefined]. *)
Definition dateRange_from (dateRange : option DateRange) : option Date :=
  match dateRange with
  | Some r => from r
  | None => None
  end.

Definition dateRange_to (dateRange : option DateRange) : option Date :=
  match dateRange with
  | Some r => to r
  | None => None
  end.

(** ** The query composer (lines 119-129) *)

(** A [Date] object is always truthy, so the two conditions test
    presence only. *)
Definition dateRangeText (dateRange : option DateRange) : jsstring :=
  match dateRange_from dateRange, dateRange_to dateRange with
  | Some f, Some t =>
      lit "from " ++ format_MMMM_d_yyyy f ++ lit " to " ++ format_MMMM_d_yyyy t
  | Some f, None => lit "starting from " ++ format_MMMM_d_yyyy f
  | None, _ => lit "upcoming"
  end.

Definition composeQuery (formData : EventFormData) : jsstring :=
  lit "Find " ++ vertical formData ++ lit " events in " ++
  location formData ++ lit " " ++ dateRangeText (dateRange formData) ++
  lit "." ++
  (if truthy (companies formData)
   then lit " Focus on events where these companies might be involved: "
        ++ companies formData ++ lit "."
   else []) ++
  (if truthy (additionalInfo formData)
   then lit " Additional requirements: " ++ additionalInfo formData
   else []).

(** ** Submission *)

(** The object handed to [JSON.stringify] and then to [send]. *)
Record QueryRequest := mkQuery { query : jsstring }.

(** The channel as the component sees it: the frames given to [send],
    oldest first. *)
Record WebSocket := mkSocket { sent : list QueryRequest }.

Definition send (m : QueryRequest) (ws : WebSocket) : WebSocket :=
  mkSocket (sent ws ++ [m]).

(** What [handleSubmit] reads and writes: the state cells, the form
    data and [wsRef.current] ([None] for [null]). *)
Record Component := mkComponent {
  ui : UIState;
  formData : EventFormData;
  wsRef : option WebSocket
}.

Definition handleSubmit (c : Component) : Component :=
  if negb (isConnected (ui c)) || isLoading (ui c) then c
  else
    let q := composeQuery (formData c) in
    match wsRef c with
    | Some ws => mkComponent (ui c) (formData c) (Some (send (mkQuery q) ws))
    | None => c
    end.

(** Frames sent so far over the component's channel. *)
Definition outbox (c : Component) : list QueryRequest :=
  match wsRef c with
  | Some ws => sent ws
  | None => []
  end.

(** The heading ["## Results\n"]: the escape is code unit 10. *)
Definition results_heading : jsstring := lit "## Results" ++ [10%N].

(** ** Sample inputs *)

Definition march_1_2025 : Date := mkDate 2025 2 1.
Definition march_5_2025 : Date := mkDate 2025 2 5.
Definition june_10_2025 : Date := mkDate 2025 5 10.

Definition berlin_fintech : EventFormData :=
  mkForm (lit "Berlin")
         (Some (mkRange (Some march_1_2025) (Some march_5_2025)))
         (lit "Fintech") (lit "Stripe") (lit "CFP open").

Definition tool_calls_event_name : jsstring :=
  lit "Tool Calls: **Event Name**: Foo".

Definition narration_101 : jsstring := repeat (N_of_ascii "a") 101.

Definition tool_trace_50 : jsstring :=
  lit "Tool Calls: " ++ repeat (N_of_ascii "x") 38.

Definition results_150 : jsstring :=
  results_heading ++ repeat (N_of_ascii "y") 139.

(** The base sentence of the query as the spec words it:
    "Find {vertical} events in {location} {dateClause}." *)
Definition base_sentence
    (vertical location : jsstring) (dateRange : option DateRange) : jsstring :=
  lit "Find " ++ vertical ++ lit " events in " ++ location ++ lit " " ++
  dateRangeText dateRange ++ lit ".".

(** ** Form editing *)

(** The keys that the four text and select inputs pass to
    [handleInputChange]; the value written under them is a string. *)
Inductive StringField :=
| key_location
| key_vertical
| key_companies
| key_additionalInfo.

(** [setFormData(prev => ({ ...prev, [field]: value }))] *)
Definition handleInputChange
    (field : StringField) (value : jsstring) (prev : EventFormData)
  : EventFormData :=
  match field with
  | key_location =>
      mkForm value (dateRange prev) (vertical prev) (companies prev)
             (additionalInfo prev)
  | key_vertical =>
      mkForm (location prev) (dateRange prev) value (companies prev)
             (additionalInfo prev)
  | key_companies =>
      mkForm (location prev) (dateRange prev) (vertical prev) value
             (additionalInfo prev)
  | key_additionalInfo =>
      mkForm (location prev) (dateRange prev) (vertical prev)
             (companies prev) value
  end.

(** The calendar's [onSelect]:
    [setFormData(prev => ({ ...prev, dateRange: range }))] *)
Definition onSelect (range : option DateRange) (prev : EventFormData)
  : EventFormData :=
  mkForm (location prev) range (vertical prev) (companies prev)
         (additionalInfo prev).

(** The argument of [useState<EventFormData>]. *)
Definition initialFormData : EventFormData := mkForm [] None [] [] [].

Definition verticalOptions : list jsstring :=
  map lit
    ["AI & Machine Learning"; "Cybersecurity"; "Blockchain & Web3";
     "Fintech"; "Healthcare Tech"; "DevTools & Infrastructure";
     "SaaS & Enterprise"; "Gaming & Entertainment"; "EdTech";
     "Climate Tech"; "Biotech"; "Robotics & Hardware"]%string.

(** ** What is rendered *)

(** The submit button's [disabled] attribute (line 338). *)
Definition submitDisabled (st : UIState) (formData : EventFormData) : bool :=
  negb (isConnected st) || isLoading st ||
  negb (truthy (location formData)) ||
  negb (match dateRange_from (dateRange formData) with
        | Some _ => true
        | None => false
        end) ||
  negb (truthy (vertical formData)).

(** The three cards of the results column, each under its own guard:
    [isLoading], [result && !isLoading] and [!result && !isLoading]. *)
Inductive Card := LoadingCard | ResultsCard | PlaceholderCard.

Definition shows (card : Card) (st : UIState) : bool :=
  match card with
  | LoadingCard => isLoading st
  | ResultsCard => truthy (result st) && negb (isLoading st)
  | PlaceholderCard => negb (truthy (result st)) && negb (isLoading st)
  end.

(** The cards on screen, in document order. *)
Definition cards (st : UIState) : list Card :=
  filter (fun card => shows card st) [LoadingCard; ResultsCard; PlaceholderCard].

(** The error alert is rendered under [error && ...]. *)
Definition showsErrorAlert (st : UIState) : bool := truthy (error st).

(** ** The component as an event-driven machine *)

(** What can happen to a mounted component: the four socket callbacks,
    the form's submit event and the two kinds of edits. *)
Inductive Action :=
| ws_onopen
| ws_onmessage (data : InboundEvent)
| ws_onclose
| ws_onerror
| form_submit
| input_change (field : StringField) (value : jsstring)
| calendar_select (range : option DateRange).

Definition updateUI (f : UIState -> UIState) (c : Component) : Component :=
  mkComponent (f (ui c)) (formData c) (wsRef c).

Definition setFormData (f : EventFormData -> EventFormData) (c : Component)
  : Component :=
  mkComponent (ui c) (f (formData c)) (wsRef c).

Definition step (a : Action) (c : Component) : Component :=
  match a with
  | ws_onopen => updateUI onopen c
  | ws_onmessage data => updateUI (onmessage data) c
  | ws_onclose => updateUI onclose c
  | ws_onerror => updateUI onerror c
  | form_submit => handleSubmit c
  | input_change field value => setFormData (handleInputChange field value) c
  | calendar_select range => setFormData (onSelect range) c
  end.

Definition run (acts : list Action) (c : Component) : Component :=
  fold_left (fun c a => step a c) acts c.

(** The component after the mount effect: [connectWebSocket] has stored
    a fresh socket in [wsRef.current] and no callback has run yet. *)
Definition mounted : Component :=
  mkComponent initialState initialFormData (Some (mkSocket [])).

(** The actions that set [isLoading] back to false. *)
Definition endsLoading (a : Action) : bool :=
  match a with
  | ws_onmessage complete => true
  | ws_onmessage (error_frame _) => true
  | ws_onerror => true
  | _ => false
  end.

(** The fragments of a list that the classifier accepts, in order. *)
Definition accepted (fragments : list jsstring) : list jsstring :=
  filter isFinalResponse fragments.

(** Sample inputs. *)
Definition running_trace_120 : jsstring :=
  lit "Running search_engine " ++ repeat (N_of_ascii "z") 98.

Definition oslo_edtech : EventFormData :=
  mkForm (lit "Oslo") (Some (mkRange (Some june_10_2025) None))
         (lit "EdTech") [] [].

(** * Properties *)

(** ** Substring search *)

Section Includes.

Lemma startsWith_iff (s p : jsstring) :
  startsWith s p = true <-> exists suf, s = p ++ suf.
Proof.
  revert s; induction p as [|c p IH]; intros s.
  - simpl; split; [intros _; exists s; reflexivity | reflexivity].
  - destruct s as [|d s]; simpl.
    + split; [discriminate | intros [suf H]; discriminate].
    + rewrite andb_true_iff, N.eqb_eq, IH; split.
      * intros [-> [suf ->]]; exists suf; reflexivity.
      * intros [suf H]; injection H as -> ->; split; [reflexivity | eauto].
Qed.

Lemma includes_cons (c : code_unit) (s p : jsstring) :
  includes (c :: s) p = startsWith (c :: s) p || includes s p.
Proof. reflexivity. Qed.

Lemma includes_iff (s p : jsstring) :
  includes s p = true <-> Substring p s.
Proof.
  unfold Substring; induction s as [|c s IH].
  - simpl; rewrite orb_false_r, startsWith_iff; split.
    + intros [suf H]; exists [], suf; exact H.
    + intros [[|d pre] [suf H]]; [exists suf; exact H | discriminate].
  - rewrite includes_cons, orb_true_iff, startsWith_iff, IH; split.
    + intros [[suf H] | [pre [suf H]]].
      * exists [], suf; exact H.
      * exists (c :: pre), suf; simpl; rewrite H; reflexivity.
    + intros [[|d pre] [suf H]].
      * left; exists suf; exact H.
      * right; injection H as _ H; exists pre, suf; exact H.
Qed.

Lemma includes_false_iff (s p : jsstring) :
  includes s p = false <-> ~ Substring p s.
Proof.
  rewrite <- includes_iff; destruct (includes s p); split; intros H;
    try reflexivity; try discriminate; try (intros E; discriminate).
  exfalso; apply H; reflexivity.
Qed.

End Includes.

(** The noise test fails exactly when no marker occurs. *)
Lemma isToolCallContent_false (f : jsstring) :
  ~ Substring (lit "Tool Calls:") f ->
  ~ Substring (lit "call_") f ->
  ~ Substring (lit "===") f ->
  ~ Substring (lit "Agent") f ->
  ~ Substring (lit "Running") f ->
  isToolCallContent f = false.
Proof.
  intros H1 H2 H3 H4 H5; unfold isToolCallContent.
  apply includes_false_iff in H1, H2, H3, H4, H5.
  rewrite H1, H2, H3, H4, H5; reflexivity.
Qed.

(** ** The stream classifier *)

(** C1.  A fragment that contains ["**Event Name**:"] or ["## "] is
    judged a final response and replaces the displayed result, whatever
    its length and whatever noise markers it also contains; the
    fragment ["Tool Calls: **Event Name**: Foo"] is such a fragment. *)
Theorem marked_fragment_accepted (f : jsstring) (st : UIState) :
  Substring (lit "**Event Name**:") f \/ Substring (lit "## ") f ->
  isFinalResponse f = true /\
  onmessage (stream f) st = setResult f st /\
  result (onmessage (stream f) st) = f.
Proof.
  intros H.
  assert (E : isFinalResponse f = true).
  { unfold isFinalResponse.
    destruct H as [H | H]; apply includes_iff in H; rewrite H.
    - reflexivity.
    - rewrite orb_true_r; reflexivity. }
  split; [exact E |].
  unfold onmessage; rewrite E; split; reflexivity.
Qed.

Lemma marked_fragment_accepted_witness :
  isToolCallContent tool_calls_event_name = true /\
  isFinalResponse tool_calls_event_name = true /\
  onmessage (stream tool_calls_event_name) initialState
  = setResult tool_calls_event_name initialState /\
  result (onmessage (stream tool_calls_event_name) initialState)
  = tool_calls_event_name.
Proof.
  split; [reflexivity |].
  apply (marked_fragment_accepted tool_calls_event_name initialState).
  left; exists (lit "Tool Calls: "), (lit " Foo"); reflexivity.
Defined.

(** C2.  A fragment longer than 100 code units that contains none of
    the five noise markers is accepted, and the displayed result
    becomes exactly that fragment: the previous result is dropped, not
    extended. *)
Theorem long_clean_fragment_replaces (f : jsstring) (st : UIState) :
  (100 < length f)%nat ->
  ~ Substring (lit "Tool Calls:") f ->
  ~ Substring (lit "call_") f ->
  ~ Substring (lit "===") f ->
  ~ Substring (lit "Agent") f ->
  ~ Substring (lit "Running") f ->
  onmessage (stream f) st = setResult f st /\
  result (onmessage (stream f) st) = f.
Proof.
  intros Hlen H1 H2 H3 H4 H5.
  assert (E : isFinalResponse f = true).
  { unfold isFinalResponse.
    rewrite (isToolCallContent_false f H1 H2 H3 H4 H5).
    apply Nat.ltb_lt in Hlen; rewrite Hlen.
    rewrite !orb_true_r; reflexivity. }
  unfold onmessage; rewrite E; split; reflexivity.
Qed.

Lemma long_clean_fragment_replaces_witness :
  result (onmessage (stream narration_101)
            (mkUI true true (lit "## Earlier") []))
  = narration_101.
Proof.
  apply (long_clean_fragment_replaces narration_101
           (mkUI true true (lit "## Earlier") []));
    [ vm_compute; lia
    | apply includes_false_iff; vm_compute; reflexivity ..].
Defined.

(** C3.  A fragment of at most 100 code units that contains neither
    ["**Event Name**:"] nor ["## "] is discarded: the state, and so the
    displayed result, is unchanged, with or without noise markers. *)
Theorem short_unmarked_fragment_discarded (f : jsstring) (st : UIState) :
  (length f <= 100)%nat ->
  ~ Substring (lit "**Event Name**:") f ->
  ~ Substring (lit "## ") f ->
  isFinalResponse f = false /\
  onmessage (stream f) st = st.
Proof.
  intros Hlen H1 H2.
  assert (E : isFinalResponse f = false).
  { unfold isFinalResponse.
    apply includes_false_iff in H1, H2; rewrite H1, H2.
    assert (L : (100 <? length f)%nat = false) by (apply Nat.ltb_ge; exact Hlen).
    rewrite L; reflexivity. }
  split; [exact E |].
  unfold onmessage; rewrite E; reflexivity.
Qed.

Lemma short_unmarked_fragment_discarded_witness :
  isFinalResponse (lit "All done.") = false /\
  onmessage (stream (lit "All done.")) (mkUI true true (lit "## Earlier") [])
  = mkUI true true (lit "## Earlier") [].
Proof.
  apply (short_unmarked_fragment_discarded (lit "All done.")
           (mkUI true true (lit "## Earlier") []));
    [ vm_compute; lia
    | apply includes_false_iff; vm_compute; reflexivity ..].
Defined.

(** ** Frames other than [stream] *)

(** C8 (as amended).  A [start] frame sets [result] to the empty string
    and [isLoading] to true; [isConnected] and [error] keep their
    values. *)
Theorem start_resets_result_and_loading (st : UIState) :
  onmessage start st = mkUI (isConnected st) true [] (error st).
Proof. reflexivity. Qed.

(** C8 as stated fails: after an [error] frame on an open channel, a
    [start] frame leaves the error string in place. *)
Lemma start_keeps_error :
  let st := onmessage (error_frame None) (onopen initialState) in
  error (onmessage start st) = lit "An error occurred" /\
  error (onmessage start st) <> [].
Proof. split; [reflexivity | discriminate]. Qed.

(** C6 (as amended).  An [error] frame sets [isLoading] to false and
    leaves [result] and [isConnected] alone; the error string becomes
    the frame's [message] when that is a non-empty string and the
    default string when [message] is absent or empty, so it is never
    empty. *)
Theorem error_frame_sets_error :
  (forall st c m,
     onmessage (error_frame (Some (c :: m))) st
     = mkUI (isConnected st) false (result st) (c :: m)) /\
  (forall st,
     onmessage (error_frame None) st
     = mkUI (isConnected st) false (result st) (lit "An error occurred")) /\
  (forall st,
     onmessage (error_frame (Some [])) st
     = mkUI (isConnected st) false (result st) (lit "An error occurred")) /\
  (forall st message,
     truthy (error (onmessage (error_frame message) st)) = true).
Proof.
  repeat split.
  intros st [[|c m] |]; reflexivity.
Qed.

(** C6 as stated fails: a [message] that is present and empty is not
    the error string that results. *)
Lemma error_frame_empty_message_not_kept :
  let message : jsstring := [] in
  error (onmessage (error_frame (Some message)) initialState) <> message.
Proof. discriminate. Qed.

(** C10.  An [error] frame whose [message] is the empty string yields
    the default error string ['An error occurred'], exactly as a frame
    without [message] does. *)
Theorem error_frame_empty_message_is_default (st : UIState) :
  error (onmessage (error_frame (Some [])) st) = lit "An error occurred" /\
  onmessage (error_frame (Some [])) st = onmessage (error_frame None) st.
Proof. split; reflexivity. Qed.

(** ** A whole response cycle *)

(** A later accepted fragment overwrites whatever an earlier fragment
    left: the state after two [stream] frames does not depend on the
    first when the second is a final response. *)
Lemma stream_then_final (f1 f2 : jsstring) (st : UIState) :
  isFinalResponse f2 = true ->
  onmessage (stream f2) (onmessage (stream f1) st) = setResult f2 st.
Proof.
  intros E; unfold onmessage; rewrite E.
  destruct (isFinalResponse f1); reflexivity.
Qed.

Lemma results_heading_final (rest : jsstring) :
  isFinalResponse (results_heading ++ rest) = true.
Proof.
  unfold isFinalResponse.
  assert (H : includes (results_heading ++ rest) (lit "## ") = true).
  { apply includes_iff; exists [], (lit "Results" ++ [10%N] ++ rest).
    reflexivity. }
  rewrite H, orb_true_r; reflexivity.
Qed.

(** C7.  Folding [start], a 50-unit fragment that begins
    ["Tool Calls: "], a 150-unit fragment that begins ["## Results\n"]
    and [complete] into the initial state ends with [result] equal to
    the second fragment and [isLoading] false. *)
Theorem cycle_keeps_second_fragment (rest1 rest2 : jsstring) :
  let f1 := lit "Tool Calls: " ++ rest1 in
  let f2 := results_heading ++ rest2 in
  length f1 = 50%nat ->
  length f2 = 150%nat ->
  onmessages [start; stream f1; stream f2; complete] initialState
  = mkUI false false f2 [].
Proof.
  intros f1 f2 _ _; unfold onmessages; cbn [fold_left].
  rewrite stream_then_final by apply results_heading_final.
  reflexivity.
Qed.

Lemma cycle_keeps_second_fragment_witness :
  length tool_trace_50 = 50%nat /\
  length results_150 = 150%nat /\
  isFinalResponse tool_trace_50 = false /\
  result (onmessages [start; stream tool_trace_50; stream results_150; complete]
            initialState) = results_150 /\
  isLoading (onmessages [start; stream tool_trace_50; stream results_150; complete]
               initialState) = false.
Proof.
  split; [reflexivity |]; split; [reflexivity |]; split; [reflexivity |].
  pose proof (cycle_keeps_second_fragment
                (repeat (N_of_ascii "x") 38) (repeat (N_of_ascii "y") 139)
                eq_refl eq_refl) as H.
  change (onmessages [start; stream tool_trace_50; stream results_150; complete]
            initialState = mkUI false false results_150 []) in H.
  rewrite H; split; reflexivity.
Defined.

(** ** The query composer *)

(** C4.  The composer maps Berlin / Fintech / 2025-03-01 to 2025-03-05 /
    Stripe / CFP open to the expected sentence, and each of the two
    optional clauses is appended exactly when its field is a non-empty
    string. *)
Theorem composeQuery_clauses :
  composeQuery berlin_fintech
  = lit "Find Fintech events in Berlin from March 1, 2025 to March 5, 2025. Focus on events where these companies might be involved: Stripe. Additional requirements: CFP open" /\
  (forall loc dr vert,
     composeQuery (mkForm loc dr vert [] []) = base_sentence vert loc dr) /\
  (forall loc dr vert c cs,
     composeQuery (mkForm loc dr vert (c :: cs) [])
     = base_sentence vert loc dr
       ++ lit " Focus on events where these companies might be involved: "
       ++ (c :: cs) ++ lit ".") /\
  (forall loc dr vert a ai,
     composeQuery (mkForm loc dr vert [] (a :: ai))
     = base_sentence vert loc dr
       ++ lit " Additional requirements: " ++ (a :: ai)) /\
  (forall loc dr vert c cs a ai,
     composeQuery (mkForm loc dr vert (c :: cs) (a :: ai))
     = base_sentence vert loc dr
       ++ lit " Focus on events where these companies might be involved: "
       ++ (c :: cs) ++ lit "."
       ++ lit " Additional requirements: " ++ (a :: ai)).
Proof.
  split; [vm_compute; reflexivity |].
  repeat apply conj; intros; unfold composeQuery, base_sentence;
    cbn [truthy vertical location dateRange companies additionalInfo];
    rewrite ?app_nil_r, <- ?app_assoc; reflexivity.
Qed.

(** C5.  The date clause is "from A to B" when both dates are present,
    "starting from A" when only [from] is, and "upcoming" otherwise;
    2025-06-10 is rendered "June 10, 2025", and with only that [from]
    date and no optional field the query ends after the date clause. *)
Theorem dateRangeText_cases :
  (forall f t,
     dateRangeText (Some (mkRange (Some f) (Some t)))
     = lit "from " ++ format_MMMM_d_yyyy f ++ lit " to " ++ format_MMMM_d_yyyy t) /\
  (forall f,
     dateRangeText (Some (mkRange (Some f) None))
     = lit "starting from " ++ format_MMMM_d_yyyy f) /\
  (forall t, dateRangeText (Some (mkRange None t)) = lit "upcoming") /\
  dateRangeText None = lit "upcoming" /\
  format_MMMM_d_yyyy june_10_2025 = lit "June 10, 2025" /\
  (forall vert loc,
     composeQuery (mkForm loc (Some (mkRange (Some june_10_2025) None)) vert [] [])
     = lit "Find " ++ vert ++ lit " events in " ++ loc
       ++ lit " starting from June 10, 2025.").
Proof.
  repeat apply conj; intros; reflexivity.
Qed.

(** ** Submission *)

(** When the channel is open and no response is pending, submission
    hands exactly one request, the composed query, to the socket. *)
Lemma handleSubmit_sends (st : UIState) (fd : EventFormData) (ws : WebSocket) :
  isConnected st = true ->
  isLoading st = false ->
  outbox (handleSubmit (mkComponent st fd (Some ws)))
  = sent ws ++ [mkQuery (composeQuery fd)].
Proof.
  intros Hc Hl; unfold handleSubmit; cbn [ui formData wsRef].
  rewrite Hc, Hl; reflexivity.
Qed.

(** C9.  While [isConnected] is false or [isLoading] is true,
    submission sends nothing: the component, and with it the frames
    sent over the channel, is left as it was. *)
Theorem handleSubmit_gated (c : Component) :
  isConnected (ui c) = false \/ isLoading (ui c) = true ->
  handleSubmit c = c /\ outbox (handleSubmit c) = outbox c.
Proof.
  intros H.
  assert (E : handleSubmit c = c).
  { unfold handleSubmit.
    destruct H as [H | H]; rewrite H; [reflexivity |].
    rewrite orb_true_r; reflexivity. }
  rewrite E; split; reflexivity.
Qed.

Lemma handleSubmit_gated_witness :
  let c := mkComponent (mkUI true true [] []) berlin_fintech
             (Some (mkSocket [mkQuery (lit "Find EdTech events in Oslo upcoming.")])) in
  handleSubmit c = c /\ outbox (handleSubmit c) = outbox c.
Proof.
  apply (handleSubmit_gated
           (mkComponent (mkUI true true [] []) berlin_fintech
              (Some (mkSocket [mkQuery (lit "Find EdTech events in Oslo upcoming.")])))).
  right; reflexivity.
Defined.

(** * Further properties of the handlers *)

(** ** Lists and substrings *)

Lemma last_cons (A : Type) (l : list A) (a d : A) :
  last (a :: l) d = last l a.
Proof.
  revert a d; induction l as [|b l IH]; intros a d; [reflexivity |].
  change (last (a :: b :: l) d) with (last (b :: l) d).
  rewrite (IH b d), (IH b a); reflexivity.
Qed.

Lemma last_Forall (A : Type) (P : A -> Prop) (l : list A) (d : A) :
  Forall P l -> l <> [] -> P (last l d).
Proof.
  induction 1 as [|a l Ha Hl IH]; intros Hne; [congruence |].
  rewrite last_cons; destruct l as [|b l]; [exact Ha |].
  rewrite (last_cons _ l b a), <- (last_cons _ l b d); apply IH; discriminate.
Qed.

Lemma Substring_length (p s : jsstring) :
  Substring p s -> (List.length p <= List.length s)%nat.
Proof.
  intros [pre [suf ->]]; rewrite !length_app; lia.
Qed.

Lemma isFinalResponse_length (f : jsstring) :
  isFinalResponse f = true -> (3 <= length f)%nat.
Proof.
  unfold isFinalResponse, length; rewrite !orb_true_iff, andb_true_iff.
  intros [[H | H] | [H _]].
  - apply includes_iff, Substring_length in H; simpl in H; lia.
  - apply includes_iff, Substring_length in H; simpl in H; lia.
  - apply Nat.ltb_lt in H; lia.
Qed.

Lemma isFinalResponse_truthy (f : jsstring) :
  isFinalResponse f = true -> truthy f = true.
Proof.
  intros H; apply isFinalResponse_length in H.
  destruct f; [simpl in H; lia | reflexivity].
Qed.

Lemma onmessages_cons (data : InboundEvent) (frames : list InboundEvent)
    (st : UIState) :
  onmessages (data :: frames) st = onmessages frames (onmessage data st).
Proof. reflexivity. Qed.

Lemma onmessages_app (frames frames' : list InboundEvent) (st : UIState) :
  onmessages (frames ++ frames') st = onmessages frames' (onmessages frames st).
Proof. apply fold_left_app. Qed.

(** A run of [stream] frames leaves the last accepted fragment, or the
    earlier result when none is accepted, and touches nothing else. *)
Lemma onmessages_streams (fragments : list jsstring) (st : UIState) :
  onmessages (map stream fragments) st
  = mkUI (isConnected st) (isLoading st)
         (last (accepted fragments) (result st)) (error st).
Proof.
  revert st; induction fragments as [|f fs IH]; intros st.
  - destruct st; reflexivity.
  - cbn [map]; rewrite onmessages_cons, IH.
    unfold accepted; cbn [filter onmessage].
    destruct (isFinalResponse f); [| reflexivity].
    rewrite last_cons; reflexivity.
Qed.

Lemma accepted_nil_iff (fragments : list jsstring) :
  accepted fragments = [] <-> existsb isFinalResponse fragments = false.
Proof.
  unfold accepted; induction fragments as [|f fs IH]; cbn [filter existsb].
  - split; reflexivity.
  - destruct (isFinalResponse f); cbn [orb]; [| exact IH].
    split; discriminate.
Qed.

Lemma accepted_Forall (fragments : list jsstring) :
  Forall (fun f => isFinalResponse f = true) (accepted fragments).
Proof.
  apply Forall_forall; intros f H; apply filter_In in H; apply H.
Qed.

(** ** More on the classifier *)

(** X1.  A fragment that carries one of the five noise markers and
    neither heading marker is discarded, however long it is: the state
    is unchanged. *)
Theorem noisy_unmarked_fragment_discarded (f : jsstring) (st : UIState) :
  Substring (lit "Tool Calls:") f \/ Substring (lit "call_") f \/
  Substring (lit "===") f \/ Substring (lit "Agent") f \/
  Substring (lit "Running") f ->
  ~ Substring (lit "**Event Name**:") f ->
  ~ Substring (lit "## ") f ->
  isFinalResponse f = false /\ onmessage (stream f) st = st.
Proof.
  intros Hn H1 H2.
  assert (N : isToolCallContent f = true).
  { unfold isToolCallContent.
    destruct Hn as [H | [H | [H | [H | H]]]];
      apply includes_iff in H; rewrite H; rewrite ?orb_true_r; reflexivity. }
  assert (E : isFinalResponse f = false).
  { unfold isFinalResponse.
    apply includes_false_iff in H1, H2; rewrite H1, H2, N.
    rewrite andb_false_r; reflexivity. }
  split; [exact E |].
  unfold onmessage; rewrite E; reflexivity.
Qed.

Lemma noisy_unmarked_fragment_discarded_witness :
  length running_trace_120 = 120%nat /\
  isFinalResponse running_trace_120 = false /\
  onmessage (stream running_trace_120) (mkUI true true (lit "## Earlier") [])
  = mkUI true true (lit "## Earlier") [].
Proof.
  split; [reflexivity |].
  apply (noisy_unmarked_fragment_discarded running_trace_120
           (mkUI true true (lit "## Earlier") [])).
  - right; right; right; right.
    exists [], (lit " search_engine " ++ repeat (N_of_ascii "z") 98).
    reflexivity.
  - apply includes_false_iff; vm_compute; reflexivity.
  - apply includes_false_iff; vm_compute; reflexivity.
Defined.



(** ** Sequences of frames *)

Lemma onmessage_isConnected (data : InboundEvent) (st : UIState) :
  isConnected (onmessage data st) = isConnected st.
Proof.
  destruct data as [| content | | message |]; try reflexivity.
  cbn [onmessage]; destruct (isFinalResponse content); reflexivity.
Qed.

Lemma onmessages_cycle (fragments : list jsstring) (last_frame : InboundEvent)
    (st : UIState) :
  onmessages (start :: map stream fragments ++ [last_frame]) st
  = onmessage last_frame
      (mkUI (isConnected st) true (last (accepted fragments) []) (error st)).
Proof.
  rewrite onmessages_cons, onmessages_app, onmessages_streams; reflexivity.
Qed.

(** X3.  Whatever frames arrive, the displayed result is the one shown
    before them, or empty, or the content of one of the [stream] frames
    that the classifier accepts: a rejected fragment is never put on
    display. *)
Theorem result_provenance (frames : list InboundEvent) (st : UIState) :
  result (onmessages frames st) = result st \/
  result (onmessages frames st) = [] \/
  (In (stream (result (onmessages frames st))) frames /\
   isFinalResponse (result (onmessages frames st)) = true).
Proof.
  revert st; induction frames as [|data frames IH]; intros st.
  - left; reflexivity.
  - rewrite onmessages_cons.
    destruct (IH (onmessage data st)) as [H | [H | [H E]]].
    + rewrite H; destruct data as [| content | | message |];
        cbn [onmessage]; try (left; reflexivity).
      * right; left; reflexivity.
      * destruct (isFinalResponse content) eqn:E; [| left; reflexivity].
        right; right; split; [left; reflexivity | exact E].
    + right; left; exact H.
    + right; right; split; [right; exact H | exact E].
Qed.

(** X4.  A response cycle [start], any fragments, [complete] ends not
    loading with the last accepted fragment displayed, or the empty
    string when no fragment is accepted; when the cycle ends with an
    [error] frame instead, the same result stays beside the error
    string.  [isConnected] is as before in both cases. *)
Theorem cycle_result_is_last_accepted
    (fragments : list jsstring) (st : UIState) :
  onmessages (start :: map stream fragments ++ [complete]) st
  = mkUI (isConnected st) false (last (accepted fragments) []) (error st) /\
  (forall message,
     onmessages (start :: map stream fragments ++ [error_frame message]) st
     = mkUI (isConnected st) false (last (accepted fragments) [])
            (messageOrDefault message)).
Proof.
  split; [| intros message]; rewrite onmessages_cycle; reflexivity.
Qed.

(** X5.  No sequence of frames changes [isConnected]: connectivity is
    only ever reported by the socket's open, close and error
    callbacks. *)
Theorem onmessages_isConnected (frames : list InboundEvent) (st : UIState) :
  isConnected (onmessages frames st) = isConnected st.
Proof.
  revert st; induction frames as [|data frames IH]; intros st;
    [reflexivity |].
  rewrite onmessages_cons, IH; apply onmessage_isConnected.
Qed.

(** X6.  Frames other than [error] frames leave the error string as it
    is; in particular a new response cycle does not clear an earlier
    error. *)
Theorem onmessages_error_unchanged
    (frames : list InboundEvent) (st : UIState) :
  (forall message, ~ In (error_frame message) frames) ->
  error (onmessages frames st) = error st.
Proof.
  revert st; induction frames as [|data frames IH]; intros st H;
    [reflexivity |].
  rewrite onmessages_cons, IH.
  - destruct data as [| content | | message |]; try reflexivity.
    + cbn [onmessage]; destruct (isFinalResponse content); reflexivity.
    + exfalso; apply (H message); left; reflexivity.
  - intros message Hin; apply (H message); right; exact Hin.
Qed.

Lemma onmessages_error_unchanged_witness :
  error (onmessages [start; stream results_150; complete]
           (mkUI true false [] (lit "An error occurred")))
  = lit "An error occurred".
Proof.
  apply (onmessages_error_unchanged [start; stream results_150; complete]
           (mkUI true false [] (lit "An error occurred"))).
  intros message [H | [H | [H | []]]]; discriminate.
Defined.

(** ** The results column *)

(** X7.  In every state exactly one of the three cards (loading,
    results, placeholder) is on screen. *)
Theorem cards_exactly_one (st : UIState) :
  exists card, cards st = [card].
Proof.
  unfold cards; cbn [filter shows].
  destruct (isLoading st), (truthy (result st)); cbn [andb negb]; eauto.
Qed.

(** X8.  From [start] until the cycle ends, only the loading card is on
    screen: fragments that arrive, accepted or not, are not visible
    while [isLoading] holds. *)
Theorem cards_while_streaming (fragments : list jsstring) (st : UIState) :
  cards (onmessages (start :: map stream fragments) st) = [LoadingCard].
Proof.
  rewrite onmessages_cons, onmessages_streams.
  unfold cards; cbn [filter shows onmessage setResult setIsLoading
                     isLoading result negb].
  rewrite !andb_false_r; reflexivity.
Qed.

(** X9.  After a complete cycle the results card is on screen when some
    fragment was accepted, and the placeholder card otherwise. *)
Theorem cards_after_cycle (fragments : list jsstring) (st : UIState) :
  cards (onmessages (start :: map stream fragments ++ [complete]) st)
  = if existsb isFinalResponse fragments
    then [ResultsCard] else [PlaceholderCard].
Proof.
  rewrite onmessages_cycle.
  unfold cards; cbn [filter shows onmessage setIsLoading isLoading result negb].
  rewrite !andb_true_r.
  destruct (existsb isFinalResponse fragments) eqn:E.
  - assert (T : truthy (last (accepted fragments) []) = true).
    { apply isFinalResponse_truthy.
      apply (last_Forall _ (fun f => isFinalResponse f = true));
        [apply accepted_Forall |].
      intros H; apply accepted_nil_iff in H; congruence. }
    rewrite T; reflexivity.
  - apply accepted_nil_iff in E; rewrite E; reflexivity.
Qed.

(** ** More on the query composer *)

(** X10.  The date clause is "upcoming" exactly when the form has no
    [from] date, whether or not it has a [to] date. *)
Theorem dateRangeText_upcoming_iff (dr : option DateRange) :
  dateRangeText dr = lit "upcoming" <-> dateRange_from dr = None.
Proof.
  destruct dr as [[[f |] [t |]] |]; cbn; split; intros H;
    try reflexivity; discriminate H.
Qed.

(** X11.  The composer does not escape its fields, so it is not
    injective: moving the text ". Additional requirements: r" from the
    end of [companies] into [additionalInfo] (as "r.") gives a
    different form with the same query. *)
Theorem composeQuery_not_injective
    (loc vert : jsstring) (dr : option DateRange)
    (c : code_unit) (cs r : jsstring) :
  let a := mkForm loc dr vert
             ((c :: cs) ++ lit ". Additional requirements: " ++ r) [] in
  let b := mkForm loc dr vert (c :: cs) (r ++ lit ".") in
  a <> b /\ composeQuery a = composeQuery b.
Proof.
  intros a b; split.
  - intros H; apply (f_equal additionalInfo) in H; cbn in H.
    destruct r; discriminate H.
  - unfold composeQuery, a, b;
      cbn [truthy vertical location dateRange companies additionalInfo app].
    assert (T : truthy (r ++ lit ".") = true) by (destruct r; reflexivity).
    rewrite T, app_nil_r.
    change (lit ". Additional requirements: ")
      with (lit "." ++ lit " Additional requirements: ").
    change (c :: cs ++ (lit "." ++ lit " Additional requirements: ") ++ r)
      with ((c :: cs) ++ (lit "." ++ lit " Additional requirements: ") ++ r).
    repeat (rewrite <- app_comm_cons || rewrite <- app_assoc); reflexivity.
Qed.

(** ** Editing the form *)

(** X12.  Edits of two different text fields commute, and an edit of a
    text field commutes with a calendar selection: the form data after
    a series of edits does not depend on their order across fields. *)
Theorem form_edits_commute
    (k1 k2 : StringField) (v1 v2 : jsstring) (range : option DateRange)
    (fd : EventFormData) :
  k1 <> k2 ->
  handleInputChange k1 v1 (handleInputChange k2 v2 fd)
  = handleInputChange k2 v2 (handleInputChange k1 v1 fd) /\
  handleInputChange k1 v1 (onSelect range fd)
  = onSelect range (handleInputChange k1 v1 fd).
Proof.
  intros H; split; destruct k1, k2; try reflexivity; congruence.
Qed.

Lemma form_edits_commute_witness :
  handleInputChange key_location (lit "Oslo")
    (handleInputChange key_vertical (lit "EdTech") initialFormData)
  = handleInputChange key_vertical (lit "EdTech")
      (handleInputChange key_location (lit "Oslo") initialFormData).
Proof.
  apply (form_edits_commute key_location key_vertical (lit "Oslo")
           (lit "EdTech") None initialFormData).
  discriminate.
Defined.

(** X13.  The twelve industry options are pairwise distinct (they are
    used as list keys) and none is empty, so any selected option
    satisfies the button's test on [vertical]. *)
Theorem verticalOptions_distinct :
  List.length verticalOptions = 12%nat /\
  NoDup verticalOptions /\
  Forall (fun option => truthy option = true) verticalOptions.
Proof.
  split; [reflexivity |]; split.
  - unfold verticalOptions; cbn [map].
    repeat (apply NoDup_cons; [cbn; intuition discriminate |]).
    apply NoDup_nil.
  - repeat constructor.
Qed.

(** ** The submit button and the handler's own gate *)

(** X14.  When the button is enabled and a socket exists, a submit
    hands exactly one request to the socket, the composed query of the
    current form; that query names a start date (its date clause is not
    "upcoming") and the state cells and form data are untouched. *)
Theorem enabled_submit_sends (c : Component) (ws : WebSocket) :
  submitDisabled (ui c) (formData c) = false ->
  wsRef c = Some ws ->
  handleSubmit c
  = mkComponent (ui c) (formData c)
      (Some (mkSocket (sent ws ++ [mkQuery (composeQuery (formData c))]))) /\
  dateRangeText (dateRange (formData c)) <> lit "upcoming".
Proof.
  unfold submitDisabled; intros H Hws.
  rewrite !orb_false_iff, !negb_false_iff in H.
  destruct H as [[[[Hc Hl] _] Hd] _]; split.
  - unfold handleSubmit; rewrite Hc, Hl, Hws; reflexivity.
  - destruct (dateRange (formData c)) as [[[f |] [t |]] |];
      cbn in Hd |- *; discriminate.
Qed.

Lemma enabled_submit_sends_witness :
  outbox (handleSubmit
            (mkComponent (mkUI true false [] []) oslo_edtech
               (Some (mkSocket []))))
  = [mkQuery (lit "Find EdTech events in Oslo starting from June 10, 2025.")].
Proof.
  pose proof (enabled_submit_sends
                (mkComponent (mkUI true false [] []) oslo_edtech
                   (Some (mkSocket [])))
                (mkSocket []) eq_refl eq_refl) as [H _].
  rewrite H; reflexivity.
Defined.

(** X15.  The handler's own gate does not look at the form: connected
    and not loading, it sends the composed query even when the
    required fields are empty, and it leaves [isLoading] false, so [n]
    submits in a row before any frame arrives send [n] requests. *)
Theorem repeated_submit_sends_each_time
    (n : nat) (st : UIState) (fd : EventFormData) (ws : WebSocket) :
  isConnected st = true ->
  isLoading st = false ->
  run (repeat form_submit n) (mkComponent st fd (Some ws))
  = mkComponent st fd
      (Some (mkSocket (sent ws ++ repeat (mkQuery (composeQuery fd)) n))).
Proof.
  intros Hc Hl; revert ws; induction n as [|n IH]; intros ws.
  - cbn; rewrite app_nil_r; destruct ws; reflexivity.
  - cbn [repeat]; unfold run; cbn [fold_left step].
    unfold handleSubmit at 1; cbn [ui formData wsRef]; rewrite Hc, Hl.
    cbn [negb orb]; fold (run (repeat form_submit n)); rewrite IH.
    cbn [send sent]; rewrite <- app_assoc; reflexivity.
Qed.

Lemma repeated_submit_sends_each_time_witness :
  outbox (run [form_submit; form_submit] (step ws_onopen mounted))
  = [mkQuery (lit "Find  events in  upcoming.");
     mkQuery (lit "Find  events in  upcoming.")].
Proof.
  pose proof (repeated_submit_sends_each_time 2 (onopen initialState)
                initialFormData (mkSocket []) eq_refl eq_refl) as H.
  change (run [form_submit; form_submit] (step ws_onopen mounted)
          = mkComponent (onopen initialState) initialFormData
              (Some (mkSocket
                 ([] ++ repeat (mkQuery (composeQuery initialFormData)) 2))))
    in H.
  rewrite H; reflexivity.
Defined.

(** ** The component over time *)

Lemma step_keeps_outbox_when_gated (a : Action) (c : Component) :
  isConnected (ui c) = false \/ isLoading (ui c) = true ->
  outbox (step a c) = outbox c.
Proof.
  intros H; destruct a; try reflexivity.
  cbn [step]; unfold handleSubmit.
  destruct H as [H | H]; rewrite H; rewrite ?orb_true_r; reflexivity.
Qed.

Lemma step_stays_disconnected (a : Action) (c : Component) :
  a <> ws_onopen ->
  isConnected (ui c) = false ->
  isConnected (ui (step a c)) = false.
Proof.
  intros Ha H; destruct a; try reflexivity; try exact H; try congruence.
  - cbn [step updateUI ui]; rewrite onmessage_isConnected; exact H.
  - cbn [step]; unfold handleSubmit; rewrite H; exact H.
Qed.

Lemma step_stays_loading (a : Action) (c : Component) :
  endsLoading a = false ->
  isLoading (ui c) = true ->
  isLoading (ui (step a c)) = true.
Proof.
  intros Ha H; destruct a as [| data | | | | |]; try reflexivity;
    try exact H; try discriminate Ha.
  - destruct data as [| content | | message |];
      try reflexivity; try exact H; try discriminate Ha.
    cbn [step updateUI ui onmessage].
    destruct (isFinalResponse content); exact H.
  - cbn [step]; unfold handleSubmit; rewrite H, orb_true_r; exact H.
Qed.

(** X16.  Once the component is disconnected, nothing is sent until the
    socket's open callback runs again: over any actions without an
    open event the frames sent stay the same and the component stays
    disconnected.  Submissions made meanwhile are not queued. *)
Theorem disconnected_sends_nothing (acts : list Action) (c : Component) :
  isConnected (ui c) = false ->
  ~ In ws_onopen acts ->
  outbox (run acts c) = outbox c /\
  isConnected (ui (run acts c)) = false.
Proof.
  revert c; induction acts as [|a acts IH]; intros c Hc Hn.
  - split; [reflexivity | exact Hc].
  - change (run (a :: acts) c) with (run acts (step a c)).
    assert (Ha : a <> ws_onopen) by (intros ->; apply Hn; left; reflexivity).
    destruct (IH (step a c)) as [H1 H2].
    + apply step_stays_disconnected; assumption.
    + intros Hin; apply Hn; right; exact Hin.
    + split; [| exact H2].
      rewrite H1; apply step_keeps_outbox_when_gated; left; exact Hc.
Qed.

Lemma disconnected_sends_nothing_witness :
  outbox (run [input_change key_location (lit "Oslo"); form_submit;
               ws_onmessage complete; form_submit]
            (step ws_onclose (step ws_onopen mounted)))
  = [].
Proof.
  apply (disconnected_sends_nothing
           [input_change key_location (lit "Oslo"); form_submit;
            ws_onmessage complete; form_submit]
           (step ws_onclose (step ws_onopen mounted))).
  - reflexivity.
  - intros [H | [H | [H | [H | []]]]]; discriminate.
Defined.

(** X17.  While a response is pending nothing is sent: from a loading
    state, over any actions other than a [complete] frame, an [error]
    frame or a socket error, the frames sent stay the same and the
    component stays loading. *)
Theorem loading_sends_nothing (acts : list Action) (c : Component) :
  isLoading (ui c) = true ->
  Forall (fun a => endsLoading a = false) acts ->
  outbox (run acts c) = outbox c /\
  isLoading (ui (run acts c)) = true.
Proof.
  intros Hl Hf; revert c Hl; induction Hf as [|a acts Ha Hf IH]; intros c Hl.
  - split; [reflexivity | exact Hl].
  - change (run (a :: acts) c) with (run acts (step a c)).
    destruct (IH (step a c)) as [H1 H2].
    + apply step_stays_loading; assumption.
    + split; [| exact H2].
      rewrite H1; apply step_keeps_outbox_when_gated; right; exact Hl.
Qed.

Lemma loading_sends_nothing_witness :
  outbox (run [form_submit; ws_onmessage (stream results_150); ws_onclose;
               form_submit]
            (step (ws_onmessage start) (step ws_onopen mounted)))
  = [] /\
  isLoading (ui (run [form_submit; ws_onmessage (stream results_150);
                      ws_onclose; form_submit]
                   (step (ws_onmessage start) (step ws_onopen mounted))))
  = true.
Proof.
  apply (loading_sends_nothing
           [form_submit; ws_onmessage (stream results_150); ws_onclose;
            form_submit]
           (step (ws_onmessage start) (step ws_onopen mounted))).
  - reflexivity.
  - repeat constructor.
Defined.

Lemma handleSubmit_ui (c : Component) : ui (handleSubmit c) = ui c.
Proof.
  unfold handleSubmit.
  destruct (negb (isConnected (ui c)) || isLoading (ui c)); [reflexivity |].
  destruct (wsRef c); reflexivity.
Qed.

Lemma messageOrDefault_truthy (message : option jsstring) :
  truthy (messageOrDefault message) = true.
Proof. destruct message as [[| c m] |]; reflexivity. Qed.

Lemma step_keeps_error_alert (a : Action) (c : Component) :
  a <> ws_onopen ->
  showsErrorAlert (ui c) = true ->
  showsErrorAlert (ui (step a c)) = true.
Proof.
  unfold showsErrorAlert; intros Ha H.
  destruct a as [| data | | | | |]; try exact H; try congruence.
  - destruct data as [| content | | message |]; try exact H.
    + cbn [step updateUI ui onmessage].
      destruct (isFinalResponse content); exact H.
    + apply messageOrDefault_truthy.
  - reflexivity.
  - cbn [step]; rewrite handleSubmit_ui; exact H.
Qed.

(** X18.  Once the error alert is on screen it stays there: no frame,
    close, socket error, submit or edit removes it; only the socket's
    open callback clears the error string. *)
Theorem error_alert_persists (acts : list Action) (c : Component) :
  showsErrorAlert (ui c) = true ->
  ~ In ws_onopen acts ->
  showsErrorAlert (ui (run acts c)) = true.
Proof.
  revert c; induction acts as [|a acts IH]; intros c Hc Hn; [exact Hc |].
  change (run (a :: acts) c) with (run acts (step a c)).
  apply IH.
  - apply step_keeps_error_alert; [| exact Hc].
    intros ->; apply Hn; left; reflexivity.
  - intros Hin; apply Hn; right; exact Hin.
Qed.

Lemma error_alert_persists_witness :
  showsErrorAlert
    (ui (run [form_submit; ws_onmessage start;
              ws_onmessage (stream results_150); ws_onmessage complete]
           (step (ws_onmessage (error_frame None)) (step ws_onopen mounted))))
  = true.
Proof.
  apply (error_alert_persists
           [form_submit; ws_onmessage start;
            ws_onmessage (stream results_150); ws_onmessage complete]
           (step (ws_onmessage (error_frame None)) (step ws_onopen mounted))).
  - reflexivity.
  - intros [H | [H | [H | [H | []]]]]; discriminate.
Defined.
